(** * measured-node-metrics: operating-system metrics

    A shallow embedding of [packages/measured-node-metrics/lib/nodeOsMetrics.js]:
    the catalog [nodeOsMetrics] of metric factories and the registration driver
    [createOSMetrics], together with the parts of the JavaScript runtime they
    rely on (truthiness and [||], array indexing, exceptions, the [Promise]
    executor and [setTimeout]). *)

From Stdlib Require Import QArith Qminmax Lia.
From stdpp Require Import base option list strings gmap.

(** ** JavaScript values *)

Module JS.

(** A JavaScript number: the rounding of IEEE doubles is not modelled, the
    finite numbers are rationals. *)
Inductive number :=
  | NaN
  | Infinity (negative : bool)
  | Finite (q : Q).

#[warnings="-register-all"]
Inductive value :=
  | Undefined
  | Null
  | Bool (b : bool)
  | Number (n : number)
  | String (s : string)
  | Object (properties : gmap string value).

Definition jsnum (q : Q) : value := Number (Finite q).
Arguments jsnum q%_Q.

(** The outcome of evaluating a call: it returns or it throws a value. *)
Inductive completion (A : Type) :=
  | Normal (a : A)
  | Throw (e : value).
Arguments Normal {A} a.
Arguments Throw {A} e.

#[export] Instance completion_ret : MRet completion := @Normal.
#[export] Instance completion_bind : MBind completion :=
  fun A B f m => match m with Normal a => f a | Throw e => Throw e end.

Definition TypeError (message : string) : value :=
  Object {[ "name" := String "TypeError"; "message" := String message ]}.

(** ToBoolean: [undefined], [null], [false], [0], [NaN] and the empty string
    are falsy, everything else (every object, every other number) is truthy. *)
Definition ToBoolean (v : value) : bool :=
  match v with
  | Undefined | Null => false
  | Bool b => b
  | Number NaN => false
  | Number (Infinity _) => true
  | Number (Finite q) => negb (Qnum q =? 0)%Z
  | String s => negb (String.eqb s "")
  | Object _ => true
  end.

(** [a || b] *)
Definition logical_or (a b : value) : value :=
  if ToBoolean a then a else b.

(** [a[i]] on an array: [undefined] past the end. *)
Definition index (a : list value) (i : nat) : value :=
  default Undefined (a !! i).

(** The [i]-th parameter of a call: [undefined] when the caller passed
    fewer arguments. *)
Definition parameter (i : nat) (arguments : list value) : value :=
  default Undefined (arguments !! i).

End JS.
Export JS.

Declare Scope js_scope.
Delimit Scope js_scope with js.
Bind Scope js_scope with value.
Infix "||" := logical_or (at level 50, left associativity) : js_scope.

(** ** [os]: what the accessors of the platform return at one instant *)

Module os.

(** One entry of [os.cpus()]: the ticks of one core, idle and not idle. *)
Record CpuCoreSample := { idle : Z; nonIdle : Z }.

Record Os := {
  loadavg : completion (list value);
  freemem : completion value;
  totalmem : completion value;
  uptime : completion value;
  cpus : completion (list CpuCoreSample)
}.

End os.

(** The platform over time: the snapshot seen by the [n]-th tick read. *)
Definition World := nat -> os.Os.

(** ** [./utils/CpuUtils] *)

Module CpuUtils.

Record AggregateCpuSample := { idleTicks : Z; totalTicks : Z }.

(** Modelled from the spec: [cpuAverage] of [./utils/CpuUtils] is not among
    the sources. It reads the per-core tick counters and sums the idle ticks
    and the total ticks (idle and all other modes) across all cores; a
    failure of the read is the failure of the call. *)
Definition cpuAverage (now : os.Os) : completion AggregateCpuSample :=
  cores ← os.cpus now;
  mret {| idleTicks := foldr Z.add 0%Z (os.idle <$> cores);
          totalTicks :=
            foldr Z.add 0%Z ((fun c => os.idle c + os.nonIdle c)%Z <$> cores) |}.

Definition clamp (lo hi x : Q) : Q :=
  if Qle_bool x lo then lo else if Qle_bool hi x then hi else x.

(** Modelled from the spec: [calculateCpuUsagePercent] of [./utils/CpuUtils]
    (the spec's computeUsagePercent) is not among the sources. With
    [idleDelta] and [totalDelta] the differences of the idle and total ticks
    of the two samples, the result is 0 when [totalDelta <= 0] and
    [100 * (1 - idleDelta / totalDelta)] clamped to [0, 100] otherwise. *)
Definition calculateCpuUsagePercent (startMeasure endMeasure : AggregateCpuSample) : Q :=
  let idleDelta := (idleTicks endMeasure - idleTicks startMeasure)%Z in
  let totalDelta := (totalTicks endMeasure - totalTicks startMeasure)%Z in
  if (totalDelta <=? 0)%Z then 0%Q
  else clamp 0 100 (100 * (1 - inject_Z idleDelta / inject_Z totalDelta))%Q.

End CpuUtils.
Export CpuUtils.

(** ** The asynchronous code of a refresh, and the runtime that runs it *)

(** The statements of one synchronous frame, in the order the frame runs
    them; each constructor is one call the source makes. *)
Inductive Code :=
  | Done
  | CallCpuAverage (k : AggregateCpuSample -> Code)
  | CallSetTimeout (callback : Code) (delay : value) (k : Code)
  | CallResolve (v : value) (k : Code).

(** A function [() => new Promise(resolve => executor)]. *)
Inductive PromiseCallback :=
  | NewPromise (executor : Code).

Inductive PromiseState :=
  | Pending
  | Fulfilled (v : value)
  | Rejected (reason : value).

(** The state of the event loop around one promise. *)
Record Loop := {
  reads : nat;                     (* tick reads made so far *)
  promise : PromiseState;
  timers : list (value * Code);    (* armed timers: delay and callback *)
  uncaught : list value            (* exceptions no frame caught *)
}.

Definition initial : Loop :=
  {| reads := 0; promise := Pending; timers := []; uncaught := [] |}.

Definition afterRead (st : Loop) : Loop :=
  {| reads := S (reads st); promise := promise st;
     timers := timers st; uncaught := uncaught st |}.

Definition arm (delay : value) (callback : Code) (st : Loop) : Loop :=
  {| reads := reads st; promise := promise st;
     timers := timers st ++ [(delay, callback)]; uncaught := uncaught st |}.

(** Settling a promise that is already settled does nothing. *)
Definition settle (outcome : PromiseState) (st : Loop) : Loop :=
  {| reads := reads st;
     promise := match promise st with Pending => outcome | settled => settled end;
     timers := timers st; uncaught := uncaught st |}.

Definition report (e : value) (st : Loop) : Loop :=
  {| reads := reads st; promise := promise st;
     timers := timers st; uncaught := uncaught st ++ [e] |}.

(** One frame: a call that throws ends the frame with that exception. *)
Fixpoint runFrame (world : World) (c : Code) (st : Loop) : completion unit * Loop :=
  match c with
  | Done => (Normal (), st)
  | CallCpuAverage k =>
      match cpuAverage (world (reads st)) with
      | Normal measure => runFrame world (k measure) (afterRead st)
      | Throw e => (Throw e, afterRead st)
      end
  | CallSetTimeout callback delay k => runFrame world k (arm delay callback st)
  | CallResolve v k => runFrame world k (settle (Fulfilled v) st)
  end.

(** [new Promise(executor)]: the constructor runs the executor at once and
    turns an exception of the executor into a rejection. *)
Definition callPromiseCallback (world : World) (f : PromiseCallback) (st : Loop) : Loop :=
  match f with
  | NewPromise executor =>
      match runFrame world executor st with
      | (Normal _, st') => st'
      | (Throw e, st') => settle (Rejected e) st'
      end
  end.

(** The oldest armed timer fires: its callback is a frame of its own, with
    nothing around it to catch what it throws. *)
Definition fireTimer (world : World) (st : Loop) : Loop :=
  match timers st with
  | [] => st
  | (_, callback) :: later =>
      let st0 := {| reads := reads st; promise := promise st;
                    timers := later; uncaught := uncaught st |} in
      match runFrame world callback st0 with
      | (Normal _, st') => st'
      | (Throw e, st') => report e st'
      end
  end.

(** One refresh cycle: the callback is called, then its timer fires. *)
Definition refreshCycle (world : World) (f : PromiseCallback) : Loop :=
  fireTimer world (callPromiseCallback world f initial).

(** [setTimeout] counts its delay in milliseconds. A delay below 1 or above
    2^31 - 1 is set to 1 and a fraction is dropped; only a finite number is
    modelled as a delay. *)
Definition setTimeoutMilliseconds (delay : value) : option Z :=
  match delay with
  | Number (Finite q) =>
      if Qle_bool 1 q && Qle_bool q 2147483647
      then Some (Qnum q / Zpos (Qden q))%Z else Some 1%Z
  | _ => None
  end.

Definition secondsOfMilliseconds (ms : Z) : Q := (inject_Z ms / 1000)%Q.

(** ** [measured-core]: the two metric primitives the catalog builds *)

Module measured_core.

Inductive Metric :=
  | Gauge (readFn : os.Os -> completion value)
  | CachedGauge (valueProducingPromiseCallback : PromiseCallback)
                (updateIntervalInSeconds : value).

(** Reading a gauge calls its function on the platform as it is now. *)
Definition getValue (m : Metric) (now : os.Os) : option (completion value) :=
  match m with
  | Gauge readFn => Some (readFn now)
  | CachedGauge _ _ => None
  end.

Definition updateInterval (m : Metric) : option value :=
  match m with
  | Gauge _ => None
  | CachedGauge _ updateIntervalInSeconds => Some updateIntervalInSeconds
  end.

Definition promiseCallback (m : Metric) : option PromiseCallback :=
  match m with
  | Gauge _ => None
  | CachedGauge f _ => Some f
  end.

End measured_core.
Export measured_core.

(** ** [nodeOsMetrics.js] *)

Definition DEFAULT_NODE_OS_METRICS_REPORTING_INTERVAL_IN_SECONDS : value := jsnum 30.

(** The body of the cached gauge's callback for a given sample time. *)
Definition cpuSampling (sampleTimeInSeconds : value) : PromiseCallback :=
  NewPromise
    (CallCpuAverage (fun startMeasure =>
     CallSetTimeout
       (CallCpuAverage (fun endMeasure =>
        let percentageCPU := calculateCpuUsagePercent startMeasure endMeasure in
        CallResolve (jsnum percentageCPU) Done))
       sampleTimeInSeconds
     Done)).

(** The catalog, an object literal: its keys in the order they are written. *)
Definition nodeOsMetrics : list (string * (list value -> Metric)) :=
  [ ("node.os.loadavg.1m", fun _ =>
       Gauge (fun now => a ← os.loadavg now; mret (index a 0)));
    ("node.os.loadavg.5m", fun _ =>
       Gauge (fun now => a ← os.loadavg now; mret (index a 1)));
    ("node.os.loadavg.15m", fun _ =>
       Gauge (fun now => a ← os.loadavg now; mret (index a 2)));
    ("node.os.freemem", fun _ => Gauge (fun now => os.freemem now));
    ("node.os.totalmem", fun _ => Gauge (fun now => os.totalmem now));
    ("node.os.uptime", fun _ => Gauge (fun now => os.uptime now));
    ("node.os.cpu.all-cores-avg", fun arguments =>
       let updateIntervalInSeconds := parameter 0 arguments in
       let sampleTimeInSeconds := parameter 1 arguments in
       let updateIntervalInSeconds := (updateIntervalInSeconds || jsnum 30)%js in
       let sampleTimeInSeconds := (sampleTimeInSeconds || jsnum 5)%js in
       CachedGauge (cpuSampling sampleTimeInSeconds) updateIntervalInSeconds) ].

(** [Object.keys(o)] *)
Definition Object_keys {A} (o : list (string * A)) : list string := o.*1.

(** [o[key]]: the first property of that name. *)
Fixpoint property {A} (o : list (string * A)) (key : string) : option A :=
  match o with
  | [] => None
  | (k, v) :: rest => if String.eqb k key then Some v else property rest key
  end.

(** The arguments of one call of [register]. *)
Record RegistrationRequest := {
  metricName : string;
  metric : Metric;
  dimensions : value;
  intervalSeconds : value
}.

Section Driver.

(** The registry is the caller's: its state, and what a call of its
    [register] returns or throws and does to that state. *)
Context {Registry : Type}.
Variable register : RegistrationRequest -> Registry -> completion unit * Registry.

(** The driver's state: the registry and the calls of [register] made. *)
Definition DriverState : Type := Registry * list RegistrationRequest.

Definition M (A : Type) : Type := DriverState -> completion A * DriverState.

Definition ret {A} (a : A) : M A := fun st => (Normal a, st).

Definition throw {A} (e : value) : M A := fun st => (Throw e, st).

Definition bind {A B} (m : M A) (f : A -> M B) : M B :=
  fun st => match m st with
            | (Normal a, st') => f a st'
            | (Throw e, st') => (Throw e, st')
            end.

Local Notation "'let*' x := m 'in' k" := (bind m (fun x => k))
  (at level 10, x pattern, m at level 100, k at level 200).

(** [metricsRegistry.register(name, metric, dimensions, interval)], the
    four arguments as one request. *)
Definition callRegister (request : RegistrationRequest) : M unit :=
  fun '(registry, calls) =>
    let '(outcome, registry') := register request registry in
    (outcome, (registry', calls ++ [request])).

(** [nodeOsMetrics[metricName]()]: calling what is not there is a TypeError. *)
Definition callFactory (name : string) : M Metric :=
  match property nodeOsMetrics name with
  | Some factory => ret (factory [])
  | None => throw (TypeError "nodeOsMetrics[metricName] is not a function")
  end.

(** [array.forEach(body)] *)
Fixpoint forEach {A} (array : list A) (body : A -> M unit) : M unit :=
  match array with
  | [] => ret ()
  | x :: rest => let* _ := body x in forEach rest body
  end.

Definition createOSMetrics (customDimensions reportingIntervalInSeconds : value) : M unit :=
  let customDimensions := (customDimensions || Object ∅)%js in
  let reportingIntervalInSeconds :=
    (reportingIntervalInSeconds
     || DEFAULT_NODE_OS_METRICS_REPORTING_INTERVAL_IN_SECONDS)%js in
  forEach (Object_keys nodeOsMetrics) (fun metricName =>
    let* m := callFactory metricName in
    callRegister {| metricName := metricName; metric := m;
                    dimensions := customDimensions;
                    intervalSeconds := reportingIntervalInSeconds |}).

(** Making a list of calls of [register] one after the other, up to the
    first that throws. *)
Fixpoint registerAll (requests : list RegistrationRequest) (registry : Registry)
  : completion unit * Registry :=
  match requests with
  | [] => (Normal (), registry)
  | request :: rest =>
      match register request registry with
      | (Normal _, registry') => registerAll rest registry'
      | (Throw e, registry') => (Throw e, registry')
      end
  end.

End Driver.

(** The seven requests of one call of the driver, in the catalog's order. *)
Definition requests (customDimensions reportingIntervalInSeconds : value)
  : list RegistrationRequest :=
  (fun entry : string * (list value -> Metric) =>
     {| metricName := entry.1; metric := entry.2 [];
        dimensions := (customDimensions || Object ∅)%js;
        intervalSeconds := (reportingIntervalInSeconds || jsnum 30)%js |})
  <$> nodeOsMetrics.

(** A registry for the examples: the requests it holds, newest first; it
    throws on a name it already holds and is left as it was. *)
Module ListRegistry.

Definition holds (name : string) (registry : list RegistrationRequest) : bool :=
  existsb (fun r => String.eqb (metricName r) name) registry.

Definition register (request : RegistrationRequest) (registry : list RegistrationRequest)
  : completion unit * list RegistrationRequest :=
  if holds (metricName request) registry
  then (Throw (String "already registered"), registry)
  else (Normal (), request :: registry).

End ListRegistry.

(** Calling a factory of the catalog by name. *)
Definition create (name : string) (arguments : list value) : option Metric :=
  (fun factory => factory arguments) <$> property nodeOsMetrics name.

(** Reading the gauge a factory of the catalog builds. *)
Definition readGauge (name : string) (arguments : list value) (now : os.Os)
  : option (completion value) :=
  create name arguments ≫= fun m => getValue m now.

(** The delays handed to [setTimeout] while the callback is called. *)
Definition armedDelays (world : World) (f : PromiseCallback) : list value :=
  (callPromiseCallback world f initial).(timers).*1.

(** A platform for the examples: one core, [100 (n + 1)] idle ticks out of
    [400 (n + 1)] at the [n]-th read. *)
Definition busyWorld : World := fun n =>
  {| os.loadavg := Normal [jsnum 1; jsnum 2; jsnum 3];
     os.freemem := Normal (jsnum 4096);
     os.totalmem := Normal (jsnum 8192);
     os.uptime := Normal (jsnum 60);
     os.cpus := Normal [ {| os.idle := 100 * (Z.of_nat n + 1);
                            os.nonIdle := 300 * (Z.of_nat n + 1) |} ] |}.

(** The same platform, on which every tick read from the [n]-th on fails. *)
Definition failingFrom (n : nat) (e : value) : World := fun k =>
  if (n <=? k)%nat
  then {| os.loadavg := os.loadavg (busyWorld k); os.freemem := os.freemem (busyWorld k);
          os.totalmem := os.totalmem (busyWorld k); os.uptime := os.uptime (busyWorld k);
          os.cpus := Throw e |}
  else busyWorld k.

(** A registry that already holds [node.os.freemem]. *)
Definition taken : list RegistrationRequest :=
  [ {| metricName := "node.os.freemem"; metric := Gauge (fun now => os.freemem now);
       dimensions := Object ∅; intervalSeconds := jsnum 30 |} ].

(** Comparisons of rational constants. *)
Local Ltac Qcompare := unfold Qle, Qlt; cbn; lia.

(** * Properties *)

(** ** The driver replays the seven requests *)

Section DriverFacts.

Context {Registry : Type}.
Variable register : RegistrationRequest -> Registry -> completion unit * Registry.

Lemma createOSMetrics_replay (d i : value) (st : DriverState) :
  createOSMetrics register d i st = forEach (requests d i) (callRegister register) st.
Proof. reflexivity. Qed.

(** What a replay of any list of requests does: the calls made are the
    requests up to the first that throws, that one included. *)
Lemma replay_inv (rs : list RegistrationRequest) :
  forall reg calls out reg' calls',
    forEach rs (callRegister register) (reg, calls) = (out, (reg', calls')) ->
    exists made,
      calls' = calls ++ made /\
      registerAll register made reg = (out, reg') /\
      match out with
      | Normal _ => made = rs
      | Throw e =>
          exists k r reg_k,
            rs !! k = Some r /\ made = take (S k) rs /\
            registerAll register (take k rs) reg = (Normal (), reg_k) /\
            register r reg_k = (Throw e, reg')
      end.
Proof.
  induction rs as [|r rs IH]; intros reg calls out reg' calls' H.
  - cbn in H. injection H as <- <- <-. exists []. rewrite app_nil_r. auto.
  - cbn in H. unfold bind, callRegister in H.
    destruct (register r reg) as [[[]|e] reg1] eqn:Hr.
    + apply IH in H as (made & -> & Hall & Hout).
      exists (r :: made). rewrite <- app_assoc. split; [done|].
      split; [cbn; by rewrite Hr|].
      destruct out as [[]|e]; [by subst|].
      destruct Hout as (k & r' & reg_k & Hk & -> & Hpre & Hthrow).
      exists (S k), r', reg_k. repeat split; try done.
      cbn. by rewrite Hr.
    + injection H as <- <- <-. exists [r]. split; [done|].
      split; [cbn; by rewrite Hr|].
      exists 0%nat, r, reg. by repeat split.
Qed.

(** The other way round: a first failure at position [k] decides the run. *)
Lemma replay_throw (rs : list RegistrationRequest) :
  forall k r e reg reg_k reg' calls,
    rs !! k = Some r ->
    registerAll register (take k rs) reg = (Normal (), reg_k) ->
    register r reg_k = (Throw e, reg') ->
    forEach rs (callRegister register) (reg, calls)
    = (Throw e, (reg', calls ++ take (S k) rs)).
Proof.
  induction rs as [|r0 rs IH]; intros k r e reg reg_k reg' calls Hk Hpre Hthrow.
  - by rewrite lookup_nil in Hk.
  - destruct k as [|k]; cbn in Hk, Hpre.
    + injection Hk as ->. injection Hpre as ->.
      cbn. unfold bind, callRegister. by rewrite Hthrow, take_0.
    + destruct (register r0 reg) as [[[]|e0] reg1] eqn:Hr0; [|discriminate].
      cbn. unfold bind at 1. unfold callRegister at 1. rewrite Hr0.
      rewrite (IH k r e reg1 reg_k reg' _ Hk Hpre Hthrow).
      by rewrite <- app_assoc.
Qed.

Lemma replay_ok (rs : list RegistrationRequest) :
  forall reg reg' calls,
    registerAll register rs reg = (Normal (), reg') ->
    forEach rs (callRegister register) (reg, calls) = (Normal (), (reg', calls ++ rs)).
Proof.
  induction rs as [|r rs IH]; intros reg reg' calls H; cbn in H.
  - injection H as ->. cbn. by rewrite app_nil_r.
  - destruct (register r reg) as [[[]|e] reg1] eqn:Hr; [|discriminate].
    cbn. unfold bind at 1. unfold callRegister at 1. rewrite Hr.
    rewrite (IH _ _ _ H). by rewrite <- app_assoc.
Qed.

End DriverFacts.

Lemma requests_length (d i : value) : length (requests d i) = 7%nat.
Proof. reflexivity. Qed.

Lemma requests_names (d i : value) :
  metricName <$> requests d i = Object_keys nodeOsMetrics.
Proof. reflexivity. Qed.

Lemma requests_shared (d i : value) :
  Forall (fun r => dimensions r = (d || Object ∅)%js /\
                   intervalSeconds r = (i || jsnum 30)%js) (requests d i).
Proof. repeat constructor. Qed.

Lemma requests_no_arguments (d i : value) :
  Forall (fun r => create (metricName r) [] = Some (metric r)) (requests d i).
Proof. repeat constructor. Qed.

Lemma Forall_take_of {A} (P : A -> Prop) (l : list A) (n : nat) :
  Forall P l -> Forall P (take n l).
Proof. intros H. revert n. induction H; intros [|n]; cbn; constructor; auto. Qed.

(** ** Registration *)

(** C1. Whatever the registry, the calls of [register] that [createOSMetrics]
    makes are made on the registry itself: its outcome and the registry it
    leaves are those of these calls, one after the other. Every one of them
    receives the same dimensions and the same interval; when the driver
    returns, it has made exactly 7 calls, one per catalog entry, all of which
    returned. The shared dimensions are the empty mapping when none are given
    and the given object otherwise; the shared interval is 30 when the given
    one is absent or falsy; [{env: "prod"}] and 10 are used as given. *)
Theorem createOSMetrics_registers_seven {Registry : Type}
    (register : RegistrationRequest -> Registry -> completion unit * Registry)
    (reg : Registry) (d i : value) out reg' calls :
  createOSMetrics register d i (reg, []) = (out, (reg', calls)) ->
  registerAll register calls reg = (out, reg') /\
  exists dims interval,
    Forall (fun c => dimensions c = dims /\ intervalSeconds c = interval) calls /\
    (out = Normal () ->
       length calls = 7%nat /\ metricName <$> calls = Object_keys nodeOsMetrics /\
       calls = requests d i /\
       registerAll register (requests d i) reg = (Normal (), reg')) /\
    (d = Undefined -> dims = Object ∅) /\
    (forall o, d = Object o -> dims = d) /\
    (ToBoolean i = false -> interval = jsnum 30) /\
    (ToBoolean i = true -> interval = i) /\
    (d = Object {[ "env" := String "prod" ]} -> i = jsnum 10 ->
       dims = Object {[ "env" := String "prod" ]} /\ interval = jsnum 10).
Proof.
  intros H. rewrite createOSMetrics_replay in H.
  apply replay_inv in H as (made & -> & Hall & Hout). cbn [app].
  split; [exact Hall|].
  exists (d || Object ∅)%js, (i || jsnum 30)%js.
  split; [|split; [|repeat split]].
  - destruct out as [[]|e].
    + subst made. apply requests_shared.
    + destruct Hout as (k & r & reg_k & _ & -> & _).
      apply Forall_take_of, requests_shared.
  - intros ->. subst made.
    split; [apply requests_length|]. split; [apply requests_names|].
    split; [reflexivity|exact Hall].
  - by intros ->.
  - by intros o ->.
  - unfold logical_or. by intros ->.
  - unfold logical_or. by intros ->.
  - by subst.
  - by subst.
Qed.

Lemma createOSMetrics_registers_seven_witness :
  let d := Object {[ "env" := String "prod" ]} in
  let run := createOSMetrics ListRegistry.register d (jsnum 10) ([], []) in
  registerAll ListRegistry.register (requests d (jsnum 10)) [] = (Normal (), run.2.1) /\
  metricName <$> run.2.1 = reverse (Object_keys nodeOsMetrics) /\
  exists dims interval,
    Forall (fun c => dimensions c = dims /\ intervalSeconds c = interval) run.2.2 /\
    length run.2.2 = 7%nat /\ dims = d /\ interval = jsnum 10.
Proof.
  intros d run.
  destruct (createOSMetrics_registers_seven ListRegistry.register [] d (jsnum 10)
              run.1 run.2.1 run.2.2 eq_refl)
    as (_ & dims & interval & Hall & Hseven & _ & Hobj & _ & Hnum & _).
  destruct (Hseven eq_refl) as (Hlen & _ & _ & Hregistry).
  split; [exact Hregistry|]. split; [reflexivity|].
  exists dims, interval. split; [exact Hall|]. split; [exact Hlen|]. split.
  - apply (Hobj _ eq_refl).
  - apply Hnum. reflexivity.
Defined.

(** C6. Every call of [register] the driver makes carries the metric its
    catalog factory builds from no arguments; the one registered as
    [node.os.cpu.all-cores-avg] therefore has update interval 30 and sample
    time 5 whatever the driver was given, and it is the last one registered
    when the driver returns. *)
Theorem createOSMetrics_uses_factory_defaults {Registry : Type}
    (register : RegistrationRequest -> Registry -> completion unit * Registry)
    (reg : Registry) (d i : value) out reg' calls :
  createOSMetrics register d i (reg, []) = (out, (reg', calls)) ->
  Forall (fun c => create (metricName c) [] = Some (metric c)) calls /\
  (forall c, c ∈ calls -> metricName c = "node.os.cpu.all-cores-avg" ->
     metric c = CachedGauge (cpuSampling (jsnum 5)) (jsnum 30)) /\
  (out = Normal () ->
     exists c, last calls = Some c /\ metricName c = "node.os.cpu.all-cores-avg").
Proof.
  intros H. rewrite createOSMetrics_replay in H.
  apply replay_inv in H as (made & -> & _ & Hout). cbn [app].
  assert (Hmade : Forall (fun c => create (metricName c) [] = Some (metric c)) made).
  { destruct out as [[]|e].
    - subst made. apply requests_no_arguments.
    - destruct Hout as (k & r & reg_k & _ & -> & _).
      apply Forall_take_of, requests_no_arguments. }
  split; [exact Hmade|]. split.
  - intros c Hc Hname. rewrite Forall_forall in Hmade.
    specialize (Hmade c Hc). rewrite Hname in Hmade.
    cbv [create property nodeOsMetrics fmap option_fmap option_map] in Hmade.
    cbn in Hmade. by injection Hmade as <-.
  - intros ->. subst made. eexists. split; reflexivity.
Qed.

Lemma createOSMetrics_uses_factory_defaults_witness :
  let run := createOSMetrics ListRegistry.register Undefined (jsnum 10) ([], []) in
  exists c, last run.2.2 = Some c /\
            metric c = CachedGauge (cpuSampling (jsnum 5)) (jsnum 30).
Proof.
  intros run.
  destruct (createOSMetrics_uses_factory_defaults ListRegistry.register []
              Undefined (jsnum 10) run.1 run.2.1 run.2.2 eq_refl)
    as (_ & Hcpu & Hlast).
  destruct (Hlast eq_refl) as (c & Hc & Hname).
  exists c. split; [exact Hc|]. apply Hcpu; [|exact Hname].
  apply list_elem_of_lookup. exists 6%nat. exact Hc.
Defined.

(** C8. When the call of [register] for the catalog entry at position [k] is
    the first to fail, throwing [e], [createOSMetrics] throws [e] to its
    caller, and the calls it has made are the first [k + 1] requests: none
    after the failing one. *)
Theorem createOSMetrics_stops_at_first_failure {Registry : Type}
    (register : RegistrationRequest -> Registry -> completion unit * Registry)
    (reg : Registry) (d i : value) (k : nat) r e reg_k reg' :
  requests d i !! k = Some r ->
  registerAll register (take k (requests d i)) reg = (Normal (), reg_k) ->
  register r reg_k = (Throw e, reg') ->
  createOSMetrics register d i (reg, [])
  = (Throw e, (reg', take (S k) (requests d i))).
Proof.
  intros Hk Hpre Hthrow. rewrite createOSMetrics_replay.
  by rewrite (replay_throw register _ k r e reg reg_k reg' [] Hk Hpre Hthrow).
Qed.

Lemma createOSMetrics_stops_at_first_failure_witness :
  (createOSMetrics ListRegistry.register Undefined Undefined (taken, [])).1
  = Throw (String "already registered") /\
  metricName <$> (createOSMetrics ListRegistry.register Undefined Undefined (taken, [])).2.2
  = ["node.os.loadavg.1m"; "node.os.loadavg.5m"; "node.os.loadavg.15m"; "node.os.freemem"].
Proof.
  rewrite (createOSMetrics_stops_at_first_failure ListRegistry.register taken
             Undefined Undefined 3 _ _ _ _ eq_refl eq_refl eq_refl).
  split; reflexivity.
Defined.

(** ** No rollback *)

Section Kept.

Context {Registry : Type}.
Variable register : RegistrationRequest -> Registry -> completion unit * Registry.

(** What it means for a name to be registered, for a registry that keeps
    what it holds: a call that returns registers its name, and no call,
    returning or throwing, drops a name. *)
Variable registered : string -> Registry -> Prop.
Hypothesis register_adds : forall r reg reg',
  register r reg = (Normal (), reg') -> registered (metricName r) reg'.
Hypothesis register_keeps : forall r reg out reg' name,
  register r reg = (out, reg') -> registered name reg -> registered name reg'.



End Kept.





(** ** CPU usage *)

Lemma clamp_spec (x : Q) :
  (clamp 0 100 x == Qmax 0 (Qmin 100 x) /\ 0 <= clamp 0 100 x /\ clamp 0 100 x <= 100)%Q.
Proof.
  unfold clamp.
  destruct (Qle_bool x 0) eqn:Hlo.
  - apply Qle_bool_iff in Hlo.
    assert (H100 : (x <= 100)%Q) by (eapply Qle_trans; [exact Hlo|Qcompare]).
    rewrite (Q.min_r 100 x H100), (Q.max_l 0 x Hlo).
    split; [reflexivity|split; Qcompare].
  - assert (H0 : (0 < x)%Q).
    { apply Qnot_le_lt. intros H. apply Qle_bool_iff in H. congruence. }
    destruct (Qle_bool 100 x) eqn:Hhi.
    + apply Qle_bool_iff in Hhi.
      rewrite (Q.min_l 100 x Hhi), (Q.max_r 0 100) by Qcompare.
      split; [reflexivity|split; Qcompare].
    + assert (H100 : (x < 100)%Q).
      { apply Qnot_le_lt. intros H. apply Qle_bool_iff in H. congruence. }
      rewrite (Q.min_r 100 x (Qlt_le_weak _ _ H100)), (Q.max_r 0 x (Qlt_le_weak _ _ H0)).
      split; [reflexivity|split; by apply Qlt_le_weak].
Qed.

(** C2. When the total ticks did not grow between the two samples, the usage
    is exactly 0: a number, not NaN, and no division is made. *)
Theorem calculateCpuUsagePercent_empty_window (startMeasure endMeasure : AggregateCpuSample) :
  (totalTicks endMeasure - totalTicks startMeasure <= 0)%Z ->
  calculateCpuUsagePercent startMeasure endMeasure = 0%Q /\
  jsnum (calculateCpuUsagePercent startMeasure endMeasure) = Number (Finite 0).
Proof.
  intros H. unfold calculateCpuUsagePercent.
  apply Z.leb_le in H. by rewrite H.
Qed.

Lemma calculateCpuUsagePercent_empty_window_witness :
  calculateCpuUsagePercent {| idleTicks := 100; totalTicks := 1000 |}
                           {| idleTicks := 100; totalTicks := 1000 |} = 0%Q.
Proof.
  apply (calculateCpuUsagePercent_empty_window
           {| idleTicks := 100; totalTicks := 1000 |}
           {| idleTicks := 100; totalTicks := 1000 |}).
  cbn. lia.
Defined.

(** C3. When the total ticks grew between the two samples, the usage is
    [100 * (1 - idleDelta / totalDelta)] clamped to [0, 100], so a value
    between 0 and 100; from idle 100 of 1000 to idle 150 of 1200 it is 75. *)
Theorem calculateCpuUsagePercent_window (startMeasure endMeasure : AggregateCpuSample) :
  let idleDelta := (idleTicks endMeasure - idleTicks startMeasure)%Z in
  let totalDelta := (totalTicks endMeasure - totalTicks startMeasure)%Z in
  (0 < totalDelta)%Z ->
  (calculateCpuUsagePercent startMeasure endMeasure
   == Qmax 0 (Qmin 100 (100 * (1 - inject_Z idleDelta / inject_Z totalDelta))) /\
   0 <= calculateCpuUsagePercent startMeasure endMeasure /\
   calculateCpuUsagePercent startMeasure endMeasure <= 100 /\
   calculateCpuUsagePercent {| idleTicks := 100; totalTicks := 1000 |}
                            {| idleTicks := 150; totalTicks := 1200 |} == 75)%Q.
Proof.
  intros idleDelta totalDelta H. unfold calculateCpuUsagePercent.
  fold idleDelta totalDelta.
  assert (Hleb : (totalDelta <=? 0)%Z = false) by (apply Z.leb_gt; exact H).
  rewrite Hleb.
  destruct (clamp_spec (100 * (1 - inject_Z idleDelta / inject_Z totalDelta))%Q)
    as (Heq & Hlo & Hhi).
  split; [exact Heq|]. split; [exact Hlo|]. split; [exact Hhi|]. reflexivity.
Qed.

Lemma calculateCpuUsagePercent_window_witness :
  (calculateCpuUsagePercent {| idleTicks := 0; totalTicks := 0 |}
                            {| idleTicks := 30; totalTicks := 40 |} == 25 /\
   calculateCpuUsagePercent {| idleTicks := 100; totalTicks := 1000 |}
                            {| idleTicks := 150; totalTicks := 1200 |} == 75)%Q.
Proof.
  destruct (calculateCpuUsagePercent_window
              {| idleTicks := 0; totalTicks := 0 |}
              {| idleTicks := 30; totalTicks := 40 |}) as (Heq & _ & _ & Hexample).
  - cbn. lia.
  - split; [|exact Hexample]. rewrite Heq. reflexivity.
Defined.

(** ** The catalog *)

Lemma falsy_zero (q : Q) (fallback : value) :
  (q == 0)%Q -> (jsnum q || fallback)%js = fallback.
Proof.
  unfold Qeq, logical_or. cbn. intros H.
  assert (Qnum q = 0%Z) as -> by lia. reflexivity.
Qed.

Lemma truthy_nonzero (q : Q) (fallback : value) :
  ~ (q == 0)%Q -> (jsnum q || fallback)%js = jsnum q.
Proof.
  unfold Qeq, logical_or. cbn. intros H.
  destruct (Z.eqb_spec (Qnum q) 0) as [Hq|Hq]; [|reflexivity].
  exfalso. apply H. rewrite Hq. lia.
Qed.

(** C4, as the code has it. The factory of [node.os.cpu.all-cores-avg]
    returns a cached gauge for every list of arguments. An argument that is
    absent or zero is replaced by its default, 30 for the update interval and
    5 for the sample time; any other number, a negative one included, is used
    as it is given; so are 60 and 10. *)
Theorem cpu_factory_defaults (arguments : list value) :
  let u := parameter 0 arguments in
  let s := parameter 1 arguments in
  exists interval sampleTime,
    create "node.os.cpu.all-cores-avg" arguments
    = Some (CachedGauge (cpuSampling sampleTime) interval) /\
    (u = Undefined \/ (exists q, u = jsnum q /\ (q == 0)%Q) -> interval = jsnum 30) /\
    (forall q, u = jsnum q -> ~ (q == 0)%Q -> interval = u) /\
    (s = Undefined \/ (exists q, s = jsnum q /\ (q == 0)%Q) -> sampleTime = jsnum 5) /\
    (forall q, s = jsnum q -> ~ (q == 0)%Q -> sampleTime = s) /\
    create "node.os.cpu.all-cores-avg" []
    = Some (CachedGauge (cpuSampling (jsnum 5)) (jsnum 30)) /\
    create "node.os.cpu.all-cores-avg" [jsnum 60; jsnum 10]
    = Some (CachedGauge (cpuSampling (jsnum 10)) (jsnum 60)).
Proof.
  intros u s. exists (u || jsnum 30)%js, (s || jsnum 5)%js.
  split; [reflexivity|]. repeat split.
  - intros [->|(q & -> & Hq)]; [reflexivity|by apply falsy_zero].
  - intros q -> Hq. by apply truthy_nonzero.
  - intros [->|(q & -> & Hq)]; [reflexivity|by apply falsy_zero].
  - intros q -> Hq. by apply truthy_nonzero.
Qed.

Lemma cpu_factory_defaults_witness :
  create "node.os.cpu.all-cores-avg" [jsnum 0; jsnum 7]
  = Some (CachedGauge (cpuSampling (jsnum 7)) (jsnum 30)).
Proof.
  destruct (cpu_factory_defaults [jsnum 0; jsnum 7])
    as (interval & sampleTime & -> & Hu & _ & _ & Hs & _).
  rewrite Hu, (Hs 7%Q eq_refl).
  - reflexivity.
  - unfold Qeq. cbn. lia.
  - right. exists 0%Q. split; reflexivity.
Defined.

(** C4, as the claim has it, fails on negative arguments: they are kept. *)
Lemma cpu_factory_keeps_negative :
  exists m f,
    create "node.os.cpu.all-cores-avg" [jsnum (-1); jsnum (-2)] = Some m /\
    updateInterval m = Some (jsnum (-1)) /\
    updateInterval m <> Some (jsnum 30) /\
    promiseCallback m = Some f /\
    armedDelays busyWorld f = [jsnum (-2)] /\
    armedDelays busyWorld f <> [jsnum 5].
Proof.
  eexists _, _. split; [reflexivity|]. cbn.
  repeat split; discriminate.
Qed.

(** Whenever the start sample can be read, the callback hands its sample
    time, unchanged, to [setTimeout]. *)
Lemma cpuSampling_arms_sample_time (world : World) (sampleTime : value) cores :
  os.cpus (world 0%nat) = Normal cores ->
  armedDelays world (cpuSampling sampleTime) = [sampleTime].
Proof.
  intros H. unfold armedDelays, cpuSampling, callPromiseCallback.
  cbn. unfold cpuAverage. rewrite H. reflexivity.
Qed.

(** C5 fails on the code. With the default sample time 5 the callback hands 5
    to [setTimeout], which counts milliseconds: the wait between the two
    samples is 5 thousandths of a second, not 5 seconds. *)
Theorem cpu_sampling_waits_milliseconds :
  exists m f,
    create "node.os.cpu.all-cores-avg" [] = Some m /\
    promiseCallback m = Some f /\
    armedDelays busyWorld f = [jsnum 5] /\
    (secondsOfMilliseconds <$> setTimeoutMilliseconds (jsnum 5)) = Some (5 / 1000)%Q /\
    ~ (5 / 1000 == 5)%Q.
Proof.
  eexists _, _. split; [reflexivity|]. split; [reflexivity|].
  split; [reflexivity|]. split; [reflexivity|]. discriminate.
Qed.

(** C7. Reading the gauge of a catalog entry other than the CPU one gives
    what the accessor of the platform gives at that instant, whatever it is:
    the free memory, the total memory and the uptime as they are returned,
    and the elements 0, 1 and 2 of the load averages. *)
Theorem gauges_read_the_platform (arguments : list value) (now : os.Os) :
  readGauge "node.os.freemem" arguments now = Some (os.freemem now) /\
  readGauge "node.os.totalmem" arguments now = Some (os.totalmem now) /\
  readGauge "node.os.uptime" arguments now = Some (os.uptime now) /\
  readGauge "node.os.loadavg.1m" arguments now
  = Some (match os.loadavg now with
          | Normal a => Normal (default Undefined (a !! 0%nat)) | Throw e => Throw e end) /\
  readGauge "node.os.loadavg.5m" arguments now
  = Some (match os.loadavg now with
          | Normal a => Normal (default Undefined (a !! 1%nat)) | Throw e => Throw e end) /\
  readGauge "node.os.loadavg.15m" arguments now
  = Some (match os.loadavg now with
          | Normal a => Normal (default Undefined (a !! 2%nat)) | Throw e => Throw e end) /\
  forall one five fifteen free total up cores,
    let instant := {| os.loadavg := Normal [one; five; fifteen];
                      os.freemem := Normal free; os.totalmem := Normal total;
                      os.uptime := Normal up; os.cpus := cores |} in
    readGauge "node.os.loadavg.1m" arguments instant = Some (Normal one) /\
    readGauge "node.os.loadavg.5m" arguments instant = Some (Normal five) /\
    readGauge "node.os.loadavg.15m" arguments instant = Some (Normal fifteen) /\
    readGauge "node.os.freemem" arguments instant = Some (Normal free) /\
    readGauge "node.os.totalmem" arguments instant = Some (Normal total) /\
    readGauge "node.os.uptime" arguments instant = Some (Normal up).
Proof.
  repeat split; cbn; by destruct (os.loadavg now).
Qed.

(** ** A tick read that fails *)

(** C9, as the code has it. When the start sample cannot be read, the
    executor throws and the refresh is a promise rejected with that failure:
    no timer is armed and nothing escapes. When the start sample is read and
    the end sample cannot be, the failure is thrown by the timer's callback,
    where nothing catches it, and the promise of the refresh stays pending. *)
Theorem cpu_refresh_failed_read (world : World) (sampleTime e : value) :
  let refresh := refreshCycle world (cpuSampling sampleTime) in
  (os.cpus (world 0%nat) = Throw e ->
     promise refresh = Rejected e /\ uncaught refresh = [] /\
     armedDelays world (cpuSampling sampleTime) = []) /\
  (forall cores,
     os.cpus (world 0%nat) = Normal cores -> os.cpus (world 1%nat) = Throw e ->
     promise refresh = Pending /\ uncaught refresh = [e] /\
     armedDelays world (cpuSampling sampleTime) = [sampleTime]).
Proof.
  intros refresh. subst refresh. split.
  - intros H.
    unfold armedDelays, refreshCycle, cpuSampling, callPromiseCallback, fireTimer.
    cbn. unfold cpuAverage. rewrite H. cbn. auto.
  - intros cores H0 H1.
    unfold armedDelays, refreshCycle, cpuSampling, callPromiseCallback, fireTimer.
    cbn. unfold cpuAverage. rewrite H0. cbn. unfold cpuAverage. rewrite H1. cbn. auto.
Qed.

Lemma cpu_refresh_failed_read_witness :
  promise (refreshCycle (failingFrom 0 (String "ENOSYS")) (cpuSampling (jsnum 5)))
  = Rejected (String "ENOSYS") /\
  uncaught (refreshCycle (failingFrom 1 (String "ENOSYS")) (cpuSampling (jsnum 5)))
  = [String "ENOSYS"].
Proof.
  split.
  - apply (cpu_refresh_failed_read (failingFrom 0 (String "ENOSYS")) (jsnum 5)).
    reflexivity.
  - eapply (cpu_refresh_failed_read (failingFrom 1 (String "ENOSYS")) (jsnum 5));
      reflexivity.
Defined.

(** C9, as the claim has it, fails when it is the end sample that cannot be
    read: the refresh is not a rejected promise, it never settles, and the
    failure is an exception no frame caught. *)
Lemma cpu_refresh_second_read_uncaught :
  let world := failingFrom 1 (String "ENOSYS") in
  let refresh := refreshCycle world (cpuSampling (jsnum 5)) in
  cpuAverage (world 1%nat) = Throw (String "ENOSYS") /\
  promise refresh = Pending /\
  promise refresh <> Rejected (String "ENOSYS") /\
  uncaught refresh = [String "ENOSYS"].
Proof.
  cbn. repeat split. discriminate.
Qed.

(** ** The driver and the registry's own outcome *)

Section DriverOutcome.

Context {Registry : Type}.
Variable register : RegistrationRequest -> Registry -> completion unit * Registry.

Lemma replay_registerAll (rs : list RegistrationRequest) :
  forall reg calls out reg' calls',
    forEach rs (callRegister register) (reg, calls) = (out, (reg', calls')) ->
    registerAll register rs reg = (out, reg').
Proof.
  induction rs as [|r rs IH]; intros reg calls out reg' calls' H; cbn in H.
  - by injection H as <- <- <-.
  - unfold bind, callRegister in H. cbn.
    destruct (register r reg) as [[[]|e] reg1] eqn:Hr.
    + eapply IH. exact H.
    + by injection H as <- <- <-.
Qed.

Lemma registerAll_never_throws (rs : list RegistrationRequest) :
  (forall r reg, exists reg', register r reg = (Normal (), reg')) ->
  forall reg, exists reg', registerAll register rs reg = (Normal (), reg').
Proof.
  intros Hok. induction rs as [|r rs IH]; intros reg; cbn.
  - by exists reg.
  - destruct (Hok r reg) as [reg1 ->]. apply IH.
Qed.

Lemma createOSMetrics_calls_shared (reg : Registry) (d i : value) out reg' calls :
  createOSMetrics register d i (reg, []) = (out, (reg', calls)) ->
  Forall (fun c => dimensions c = (d || Object ∅)%js /\
                   intervalSeconds c = (i || jsnum 30)%js) calls.
Proof.
  intros H. rewrite createOSMetrics_replay in H.
  apply replay_inv in H as (made & -> & _ & Hout). cbn [app].
  destruct out as [[]|e].
  - subst made. apply requests_shared.
  - destruct Hout as (k & r & reg_k & _ & -> & _).
    apply Forall_take_of, requests_shared.
Qed.

End DriverOutcome.

(** X1. The outcome of [createOSMetrics] and the registry it leaves are those
    of calling [register] on the seven requests in order, up to the first call
    that throws: the driver throws nothing of its own and changes the registry
    through [register] only. *)
Theorem createOSMetrics_is_registerAll {Registry : Type}
    (register : RegistrationRequest -> Registry -> completion unit * Registry)
    (reg : Registry) (d i : value) out reg' calls :
  createOSMetrics register d i (reg, []) = (out, (reg', calls)) ->
  registerAll register (requests d i) reg = (out, reg').
Proof.
  intros H. rewrite createOSMetrics_replay in H.
  eapply replay_registerAll. exact H.
Qed.

Lemma createOSMetrics_is_registerAll_witness :
  registerAll ListRegistry.register (requests Undefined Undefined) taken
  = (Throw (String "already registered"),
     (createOSMetrics ListRegistry.register Undefined Undefined (taken, [])).2.1).
Proof.
  eapply (createOSMetrics_is_registerAll ListRegistry.register taken
            Undefined Undefined).
  reflexivity.
Defined.

(** X2. On a registry whose [register] never throws, [createOSMetrics] returns
    normally for all dimensions and intervals, having made the seven requests
    on the registry: the registry it leaves is the one the seven calls of
    [register], made in order, lead to. *)
Theorem createOSMetrics_returns {Registry : Type}
    (register : RegistrationRequest -> Registry -> completion unit * Registry)
    (reg : Registry) (d i : value) :
  (forall r reg0, exists reg1, register r reg0 = (Normal (), reg1)) ->
  exists reg',
    createOSMetrics register d i (reg, []) = (Normal (), (reg', requests d i)) /\
    registerAll register (requests d i) reg = (Normal (), reg').
Proof.
  intros Hok.
  destruct (registerAll_never_throws register (requests d i) Hok reg) as [reg' Hall].
  exists reg'. split; [|exact Hall]. rewrite createOSMetrics_replay.
  by rewrite (replay_ok register _ _ _ [] Hall).
Qed.

Lemma createOSMetrics_returns_witness :
  createOSMetrics (fun _ count => (Normal (), S count)) Null (jsnum 10) (0%nat, [])
  = (Normal (), (7%nat, requests Null (jsnum 10))).
Proof.
  destruct (createOSMetrics_returns (fun _ count => (Normal (), S count)) 0%nat
              Null (jsnum 10)) as (n & Hrun & Hall).
  - intros r count. by exists (S count).
  - rewrite Hrun. cbn in Hall. injection Hall as <-. reflexivity.
Defined.

(** X3. The driver does not check what it is given beyond truthiness: [null]
    dimensions become the empty mapping, a non-empty string given as
    dimensions is handed to [register] as it is, a NaN interval becomes 30,
    and a negative interval is handed to [register] unchanged. *)
Theorem createOSMetrics_unchecked_arguments {Registry : Type}
    (register : RegistrationRequest -> Registry -> completion unit * Registry)
    (reg : Registry) (d i : value) out reg' calls :
  createOSMetrics register d i (reg, []) = (out, (reg', calls)) ->
  (d = Null -> Forall (fun c => dimensions c = Object ∅) calls) /\
  (forall s, d = String s -> s <> "" -> Forall (fun c => dimensions c = d) calls) /\
  (i = Number NaN -> Forall (fun c => intervalSeconds c = jsnum 30) calls) /\
  (forall q, i = jsnum q -> (q < 0)%Q -> Forall (fun c => intervalSeconds c = i) calls).
Proof.
  intros H. apply createOSMetrics_calls_shared in H.
  repeat split.
  - intros ->. eapply Forall_impl; [exact H|]. by intros c [-> _].
  - intros s -> Hs. eapply Forall_impl; [exact H|]. intros c [-> _].
    unfold logical_or. cbn. by destruct s.
  - intros ->. eapply Forall_impl; [exact H|]. by intros c [_ ->].
  - intros q -> Hq. eapply Forall_impl; [exact H|]. intros c [_ ->].
    apply truthy_nonzero. intros Heq. rewrite Heq in Hq. by apply Qlt_irrefl in Hq.
Qed.

Lemma createOSMetrics_unchecked_arguments_witness :
  Forall (fun c => dimensions c = Object ∅ /\ intervalSeconds c = jsnum (-3))
    (createOSMetrics ListRegistry.register Null (jsnum (-3)) ([], [])).2.2.
Proof.
  destruct (createOSMetrics_unchecked_arguments ListRegistry.register []
              Null (jsnum (-3)) _ _ _ eq_refl) as (Hnull & _ & _ & Hneg).
  apply Forall_and. split.
  - apply Hnull. reflexivity.
  - apply (Hneg (-3)%Q eq_refl). reflexivity.
Defined.

(** ** A registry that refuses a name it already holds *)

Lemma catalog_keys_distinct : NoDup (Object_keys nodeOsMetrics).
Proof. apply (bool_decide_unpack (NoDup (Object_keys nodeOsMetrics))). vm_compute. exact I. Qed.

Section Duplicates.

Context {Registry : Type}.
Variable register : RegistrationRequest -> Registry -> completion unit * Registry.
Variable registered : string -> Registry -> Prop.

(** A call for a name the registry does not hold returns, and the registry
    then holds that name besides what it held. *)
Hypothesis accepts_fresh : forall r reg,
  ~ registered (metricName r) reg ->
  exists reg', register r reg = (Normal (), reg') /\
    forall name, registered name reg' <-> name = metricName r \/ registered name reg.

Lemma registerAll_fresh (rs : list RegistrationRequest) :
  NoDup (metricName <$> rs) ->
  forall reg,
    (forall name, name ∈ metricName <$> rs -> ~ registered name reg) ->
    exists reg',
      registerAll register rs reg = (Normal (), reg') /\
      forall name, registered name reg' <->
                   name ∈ metricName <$> rs \/ registered name reg.
Proof.
  induction rs as [|r rs IH]; intros Hdup reg Hfresh; cbn.
  - exists reg. split; [done|]. intros name. split; [by right|].
    intros [Hin|H]; [by apply elem_of_nil in Hin|done].
  - cbn in Hdup. apply NoDup_cons in Hdup as [Hr Hdup].
    destruct (accepts_fresh r reg) as (reg1 & -> & Hreg1).
    { apply Hfresh. cbn. apply elem_of_cons. by left. }
    destruct (IH Hdup reg1) as (reg' & -> & Hreg').
    { intros name Hin Hheld. apply Hreg1 in Hheld as [->|Hheld]; [done|].
      apply (Hfresh name); [|done]. cbn. apply elem_of_cons. by right. }
    exists reg'. split; [done|]. intros name.
    rewrite Hreg', Hreg1, elem_of_cons. tauto.
Qed.

End Duplicates.

(** X4. The catalog's names are distinct, so the driver never collides with
    itself: on a registry that accepts every name it does not hold, a call of
    [createOSMetrics] on a registry holding none of the seven names returns
    normally, and the registry then holds the seven names besides what it
    held before. *)
Theorem createOSMetrics_on_fresh_registry {Registry : Type}
    (register : RegistrationRequest -> Registry -> completion unit * Registry)
    (registered : string -> Registry -> Prop) (reg : Registry) (d i : value) :
  (forall r reg0,
     ~ registered (metricName r) reg0 ->
     exists reg1, register r reg0 = (Normal (), reg1) /\
       forall name, registered name reg1 <-> name = metricName r \/ registered name reg0) ->
  (forall name, name ∈ Object_keys nodeOsMetrics -> ~ registered name reg) ->
  exists reg',
    createOSMetrics register d i (reg, []) = (Normal (), (reg', requests d i)) /\
    forall name, registered name reg' <->
                 name ∈ Object_keys nodeOsMetrics \/ registered name reg.
Proof.
  intros Haccepts Hfresh.
  destruct (registerAll_fresh register registered Haccepts (requests d i)) with (reg := reg)
    as (reg' & Hall & Hreg').
  - rewrite requests_names. apply catalog_keys_distinct.
  - by rewrite requests_names.
  - exists reg'. rewrite createOSMetrics_replay.
    rewrite (replay_ok register _ _ _ [] Hall). split; [done|].
    intros name. by rewrite Hreg', requests_names.
Qed.

Lemma ListRegistry_accepts_fresh r reg :
  ListRegistry.holds (metricName r) reg <> true ->
  exists reg', ListRegistry.register r reg = (Normal (), reg') /\
    forall name, ListRegistry.holds name reg' = true <->
                 name = metricName r \/ ListRegistry.holds name reg = true.
Proof.
  intros Hfresh. unfold ListRegistry.register.
  destruct (ListRegistry.holds (metricName r) reg); [done|].
  exists (r :: reg). split; [done|]. intros name.
  unfold ListRegistry.holds. cbn. rewrite orb_true_iff, String.eqb_eq.
  split; (intros [H|H]; [by left|by right]).
Qed.

Lemma ListRegistry_rejects_held r reg :
  ListRegistry.holds (metricName r) reg = true ->
  exists e, ListRegistry.register r reg = (Throw e, reg).
Proof.
  intros Hheld. unfold ListRegistry.register. rewrite Hheld. by eexists.
Qed.

Lemma createOSMetrics_on_fresh_registry_witness :
  exists reg',
    createOSMetrics ListRegistry.register Undefined Undefined ([], [])
    = (Normal (), (reg', requests Undefined Undefined)) /\
    ListRegistry.holds "node.os.uptime" reg' = true.
Proof.
  destruct (createOSMetrics_on_fresh_registry ListRegistry.register
              (fun name reg => ListRegistry.holds name reg = true)
              [] Undefined Undefined ListRegistry_accepts_fresh)
    as (reg' & Hrun & Hheld).
  - intros name _. cbn. discriminate.
  - exists reg'. split; [exact Hrun|]. apply Hheld. left.
    apply list_elem_of_lookup. by exists 5%nat.
Defined.

(** X5. The driver cannot be run twice on a registry that refuses a name it
    already holds and leaves itself as it was when it refuses: after a first
    call that returned, a second call, whatever its dimensions and interval,
    throws on its first request, [node.os.loadavg.1m], makes no other call and
    leaves the registry as the first call left it. *)
Theorem createOSMetrics_twice {Registry : Type}
    (register : RegistrationRequest -> Registry -> completion unit * Registry)
    (registered : string -> Registry -> Prop) (reg : Registry) (d i d2 i2 : value) :
  (forall r reg0,
     ~ registered (metricName r) reg0 ->
     exists reg1, register r reg0 = (Normal (), reg1) /\
       forall name, registered name reg1 <-> name = metricName r \/ registered name reg0) ->
  (forall r reg0,
     registered (metricName r) reg0 -> exists e, register r reg0 = (Throw e, reg0)) ->
  (forall name, name ∈ Object_keys nodeOsMetrics -> ~ registered name reg) ->
  exists reg' e first,
    createOSMetrics register d i (reg, []) = (Normal (), (reg', requests d i)) /\
    requests d2 i2 !! 0%nat = Some first /\
    metricName first = "node.os.loadavg.1m" /\
    createOSMetrics register d2 i2 (reg', []) = (Throw e, (reg', [first])).
Proof.
  intros Haccepts Hrejects Hfresh.
  destruct (registerAll_fresh register registered Haccepts (requests d i)) with (reg := reg)
    as (reg' & Hall & Hreg').
  { rewrite requests_names. apply catalog_keys_distinct. }
  { by rewrite requests_names. }
  pose (first := {| metricName := "node.os.loadavg.1m";
                    metric := Gauge (fun now => a ← os.loadavg now; mret (index a 0));
                    dimensions := (d2 || Object ∅)%js;
                    intervalSeconds := (i2 || jsnum 30)%js |}).
  destruct (Hrejects first reg') as [e He].
  { apply Hreg'. left. rewrite requests_names.
    apply list_elem_of_lookup. by exists 0%nat. }
  exists reg', e, first. split.
  - rewrite createOSMetrics_replay. by rewrite (replay_ok register _ _ _ [] Hall).
  - split; [reflexivity|]. split; [reflexivity|].
    rewrite createOSMetrics_replay.
    by rewrite (replay_throw register _ 0%nat first e reg' reg' reg' []).
Qed.

Lemma createOSMetrics_twice_witness :
  exists reg' e first,
    createOSMetrics ListRegistry.register Undefined Undefined ([], [])
    = (Normal (), (reg', requests Undefined Undefined)) /\
    createOSMetrics ListRegistry.register Null (jsnum 5) (reg', [])
    = (Throw e, (reg', [first])).
Proof.
  destruct (createOSMetrics_twice ListRegistry.register
              (fun name reg => ListRegistry.holds name reg = true)
              [] Undefined Undefined Null (jsnum 5)
              ListRegistry_accepts_fresh ListRegistry_rejects_held)
    as (reg' & e & first & Hrun & _ & _ & Hagain).
  - intros name _. cbn. discriminate.
  - exists reg', e, first. split; [exact Hrun|exact Hagain].
Defined.

(** ** A refresh of the CPU gauge *)

Lemma create_cpu_callback (arguments : list value) m f :
  create "node.os.cpu.all-cores-avg" arguments = Some m ->
  promiseCallback m = Some f ->
  f = cpuSampling (parameter 1 arguments || jsnum 5)%js.
Proof.
  cbv [create property nodeOsMetrics fmap option_fmap option_map]. cbn.
  intros [= <-]. cbn. by intros [= <-].
Qed.

(** X6. Whatever arguments the gauge of [node.os.cpu.all-cores-avg] was built
    from, a refresh in which both tick reads succeed fulfils its promise with
    the usage computed from the sample read before the timer as the start and
    the sample read when the timer fires as the end; it makes exactly two
    reads, leaves no timer armed and nothing uncaught. *)
Theorem cpu_refresh_fulfilled (world : World) (arguments : list value) m f
    (startMeasure endMeasure : AggregateCpuSample) :
  create "node.os.cpu.all-cores-avg" arguments = Some m ->
  promiseCallback m = Some f ->
  cpuAverage (world 0%nat) = Normal startMeasure ->
  cpuAverage (world 1%nat) = Normal endMeasure ->
  let refresh := refreshCycle world f in
  promise refresh
  = Fulfilled (jsnum (calculateCpuUsagePercent startMeasure endMeasure)) /\
  reads refresh = 2%nat /\ timers refresh = [] /\ uncaught refresh = [].
Proof.
  intros Hm Hf Hstart Hend.
  rewrite (create_cpu_callback arguments m f Hm Hf).
  unfold refreshCycle, cpuSampling, callPromiseCallback, fireTimer.
  cbn. rewrite Hstart. cbn. rewrite Hend. cbn. auto.
Qed.

Lemma cpu_refresh_fulfilled_witness :
  exists m f,
    create "node.os.cpu.all-cores-avg" [jsnum 60; jsnum 10] = Some m /\
    promiseCallback m = Some f /\
    promise (refreshCycle busyWorld f)
    = Fulfilled (jsnum (calculateCpuUsagePercent
                          {| idleTicks := 100; totalTicks := 400 |}
                          {| idleTicks := 200; totalTicks := 800 |})).
Proof.
  eexists _, _. split; [reflexivity|]. split; [reflexivity|].
  eapply (cpu_refresh_fulfilled busyWorld [jsnum 60; jsnum 10]); reflexivity.
Defined.

(** X7. The callback of the CPU gauge returns before the sampling is over:
    when it returns it has made one tick read and armed at most one timer, and
    its promise is never fulfilled yet; it is pending, with the one timer
    armed for the sample time, when the read succeeded, and rejected, with no
    timer armed, when the read failed. *)
Theorem cpu_callback_returns_unsettled (world : World) (sampleTime : value) :
  let returned := callPromiseCallback world (cpuSampling sampleTime) initial in
  reads returned = 1%nat /\ uncaught returned = [] /\
  match cpuAverage (world 0%nat) with
  | Normal _ => promise returned = Pending /\ (timers returned).*1 = [sampleTime]
  | Throw e => promise returned = Rejected e /\ timers returned = []
  end.
Proof.
  unfold cpuSampling, callPromiseCallback. cbn.
  destruct (cpuAverage (world 0%nat)) as [measure|e]; cbn; auto.
Qed.

(** ** What the driver registers reads the platform *)

(** X8. Every gauge the driver hands to [register] under one of the six
    names other than the CPU one reads, each time it is read, what the
    accessor of that name gives at that instant, a failure of the accessor
    included. *)
Theorem registered_gauges_read_the_platform {Registry : Type}
    (register : RegistrationRequest -> Registry -> completion unit * Registry)
    (reg : Registry) (d i : value) out reg' calls (c : RegistrationRequest)
    (now : os.Os) :
  createOSMetrics register d i (reg, []) = (out, (reg', calls)) ->
  c ∈ calls ->
  (metricName c = "node.os.freemem" -> getValue (metric c) now = Some (os.freemem now)) /\
  (metricName c = "node.os.totalmem" -> getValue (metric c) now = Some (os.totalmem now)) /\
  (metricName c = "node.os.uptime" -> getValue (metric c) now = Some (os.uptime now)) /\
  (metricName c = "node.os.loadavg.1m" ->
     getValue (metric c) now = Some (a ← os.loadavg now; mret (index a 0))) /\
  (metricName c = "node.os.loadavg.5m" ->
     getValue (metric c) now = Some (a ← os.loadavg now; mret (index a 1))) /\
  (metricName c = "node.os.loadavg.15m" ->
     getValue (metric c) now = Some (a ← os.loadavg now; mret (index a 2))).
Proof.
  intros H Hc. rewrite createOSMetrics_replay in H.
  apply replay_inv in H as (made & -> & _ & Hout). cbn [app] in Hc.
  assert (Hmade : Forall (fun c => create (metricName c) [] = Some (metric c)) made).
  { destruct out as [[]|e].
    - subst made. apply requests_no_arguments.
    - destruct Hout as (k & r & reg_k & _ & -> & _).
      apply Forall_take_of, requests_no_arguments. }
  rewrite Forall_forall in Hmade. specialize (Hmade c Hc).
  repeat split; intros Hname; rewrite Hname in Hmade;
    cbv [create property nodeOsMetrics fmap option_fmap option_map] in Hmade;
    cbn in Hmade; by injection Hmade as <-.
Qed.

Lemma registered_gauges_read_the_platform_witness :
  exists c,
    (createOSMetrics ListRegistry.register Undefined Undefined ([], [])).2.2 !! 3%nat
    = Some c /\
    getValue (metric c) (busyWorld 0) = Some (Normal (jsnum 4096)).
Proof.
  eexists. split; [reflexivity|].
  eapply (registered_gauges_read_the_platform ListRegistry.register []
            Undefined Undefined _ _ _ _ (busyWorld 0) eq_refl).
  - apply list_elem_of_lookup. exists 3%nat. reflexivity.
  - reflexivity.
Defined.
